(** * Meta-Layer Gateway: the proxy handlers of [main.py]

    The gateway forwards each inbound request to the Tool Warehouse with one
    outbound HTTP call and maps the outcome to a response.  The handlers are
    embedded in a small monad that threads the log of outbound calls and
    carries Python exceptions; FastAPI's dispatch of a handler's return value
    or exception to an HTTP response is [endpoint]. *)

From Stdlib Require Import ZArith List String Ascii DecimalString.
From Stdlib Require SpecFloat.
Import ListNotations.
Local Open Scope Z_scope.
Local Open Scope string_scope.

(** ** Data *)

Set Warnings "-register-all".

(** A Python [float]: a binary64 double in the encoding of [SpecFloat], a
    zero, an infinity, a NaN or a finite [(-1)^s * m * 2^e] within the
    bounds of the format. *)
Record float : Type := {
  float_value : SpecFloat.spec_float;
  float_valid : SpecFloat.valid_binary 53 1024 float_value = true
}.

(** [math.isfinite(f)] *)
Definition is_finite (f : float) : bool :=
  match float_value f with
  | SpecFloat.S754_zero _ | SpecFloat.S754_finite _ _ _ => true
  | SpecFloat.S754_infinity _ | SpecFloat.S754_nan => false
  end.


(** The values [json.loads] produces.  A dict keeps its insertion order.  A
    float can be a NaN or an infinity: the parser accepts [NaN] and
    [Infinity], and a literal out of range parses to an infinity.  A string
    is well-formed text. *)
Inductive json : Type :=
| JNull
| JBool (b : bool)
| JInt (z : Z)
| JFloat (f : float)
| JStr (s : string)
| JList (l : list json)
| JDict (d : list (string * json)).

(** [d.get(k)] on a dict *)
Fixpoint dict_get (k : string) (d : list (string * json)) : option json :=
  match d with
  | [] => None
  | (k', v) :: d' => if String.eqb k k' then Some v else dict_get k d'
  end.

(** Whether [json.dumps(v, allow_nan=False)] accepts [v]: it raises a
    [ValueError] on a NaN or an infinity anywhere in the value. *)
Fixpoint json_compliant (v : json) : bool :=
  match v with
  | JFloat f => is_finite f
  | JList l => forallb json_compliant l
  | JDict d => forallb (fun kv => json_compliant (snd kv)) d
  | _ => true
  end.

(** pydantic's JSON serializer on a value of an [Any] field: a NaN or an
    infinity is written as [null], at every depth. *)
Fixpoint inf_nan_null (v : json) : json :=
  match v with
  | JFloat f => if is_finite f then JFloat f else JNull
  | JList l => JList (map inf_nan_null l)
  | JDict d => JDict (map (fun kv => (fst kv, inf_nan_null (snd kv))) d)
  | _ => v
  end.

(** [type(v).__name__] *)
Definition type_name (v : json) : string :=
  match v with
  | JNull => "NoneType"
  | JBool _ => "bool"
  | JInt _ => "int"
  | JFloat _ => "float"
  | JStr _ => "str"
  | JList _ => "list"
  | JDict _ => "dict"
  end.

(** The exceptions the handlers tell apart, all subclasses of [Exception].
    [httpx.TimeoutException] is a subclass of [httpx.RequestError];
    [RequestError] stands for the other subclasses of it (connection
    failures and the like); [Exception] for every other class
    ([ValueError], [TypeError], pydantic's [ValidationError], ...), carried
    with its [str()]. *)
Inductive exn : Type :=
| TimeoutException (msg : string)
| RequestError (msg : string)
| HTTPException (status_code : Z) (detail : string)
| Exception (msg : string).

Definition isinstance_TimeoutException (e : exn) : bool :=
  match e with TimeoutException _ => true | _ => false end.

Definition isinstance_RequestError (e : exn) : bool :=
  match e with TimeoutException _ | RequestError _ => true | _ => false end.

(** An [httpx.Response]: [json_method] is what [response.json()] does on the
    body, [inl msg] when it raises (a [ValueError] whose [str()] is [msg]). *)
Record Response : Type := {
  status_code : Z;
  text : string;
  json_method : string + json
}.

Inductive http_method : Type := GET | POST.

(** One outbound call of the [httpx.AsyncClient], by its arguments: [url] is
    the string handed to [client.get] or [client.post], before [httpx]
    parses it (the request on the wire is built by [httpx] from it and can
    differ, a fragment is dropped); [timeout] in seconds. *)
Record Call : Type := {
  method : http_method;
  url : string;
  json_body : option json;
  timeout : Z
}.

Inductive reply : Type :=
| Responds (r : Response)
| Fails (e : exn).

(** The state of the upstream: what it answers to each call. *)
Definition Upstream : Type := Call -> reply.

Record ToolExecutionRequest : Type := {
  parameters : list (string * json)
}.

Record ToolExecutionResponse : Type := {
  success : bool;
  tool_name : string;
  result : json;
  error : option string
}.

(** What the libraries around the handlers decide: pydantic's validators of
    a [bool] and a [str] field and the [str()] of its [ValidationError], the
    [str()] of the [TypeError] of a call [f( **v )] on a [v] that is no
    mapping, the [str()] of a value that is not a string, and the [str()] of
    an [HTTPException]. *)
Class PyRuntime : Type := {
  validate_bool : json -> option bool;
  validate_str : json -> option string;
  validation_error_str : list (string * json) -> string;
  mapping_error_str : json -> string;
  py_repr : json -> string;
  http_exception_str : Z -> string -> string
}.

(** The configuration: [os.getenv("TOOL_WAREHOUSE_URL", ...)], read once. *)
Class GatewayConfig : Type := {
  TOOL_WAREHOUSE_URL : string
}.

(** ** The monad of handlers *)

Inductive completion (A : Type) : Type :=
| Return (a : A)
| Raise (e : exn).
Arguments Return {A} a.
Arguments Raise {A} e.

Definition handler (A : Type) : Type :=
  Upstream -> list Call -> completion A * list Call.

Definition ret {A} (a : A) : handler A := fun _ log => (Return a, log).

Definition raise {A} (e : exn) : handler A := fun _ log => (Raise e, log).

Definition bind {A B} (m : handler A) (k : A -> handler B) : handler B :=
  fun u log =>
    match m u log with
    | (Return a, log') => k a u log'
    | (Raise e, log') => (Raise e, log')
    end.

Definition try_except {A} (body : handler A) (except : exn -> handler A)
  : handler A :=
  fun u log =>
    match body u log with
    | (Return a, log') => (Return a, log')
    | (Raise e, log') => except e u log'
    end.

Definition lift {A} (c : completion A) : handler A := fun _ log => (c, log).

(** [await client.request(...)]: the call is logged with its arguments, the
    upstream answers. *)
Definition client_request (c : Call) : handler Response :=
  fun u log =>
    (match u c with Responds r => Return r | Fails e => Raise e end,
     (log ++ [c])%list).

Definition client_get (url : string) (timeout : Z) : handler Response :=
  client_request
    {| method := GET; url := url; json_body := None; timeout := timeout |}.

Definition client_post (url : string) (body : json) (timeout : Z)
  : handler Response :=
  client_request
    {| method := POST; url := url; json_body := Some body;
       timeout := timeout |}.

Declare Scope handler_scope.
Delimit Scope handler_scope with handler.
Notation "x <- m ;; k" := (bind m (fun x => k))
  (at level 61, m at next level, right associativity) : handler_scope.
Notation "'try' b 'except' h" := (try_except b h)
  (at level 62, b at level 61, h at level 61) : handler_scope.
Local Open Scope handler_scope.

(** ** Python and pydantic on values *)

Section Gateway.
Context {rt : PyRuntime} {cfg : GatewayConfig}.

Definition str (e : exn) : string :=
  match e with
  | TimeoutException msg | RequestError msg | Exception msg => msg
  | HTTPException s d => http_exception_str s d
  end.

(** [f"{v}"] *)
Definition format (v : json) : string :=
  match v with
  | JStr s => s
  | _ => py_repr v
  end.

(** [response.json()] *)
Definition response_json (r : Response) : completion json :=
  match json_method r with
  | inr v => Return v
  | inl msg => Raise (Exception msg)
  end.

(** [v.get(k, default)] *)
Definition get (v : json) (k : string) (default : json) : completion json :=
  match v with
  | JDict d =>
      match dict_get k d with
      | Some x => Return x
      | None => Return default
      end
  | _ =>
      Raise (Exception
        ("'" ++ type_name v ++ "' object has no attribute 'get'"))
  end.

(** [error: Optional[str] = None] *)
Definition validate_optional_str (v : option json) : option (option string) :=
  match v with
  | None | Some JNull => Some None
  | Some x =>
      match validate_str x with
      | Some s => Some (Some s)
      | None => None
      end
  end.

(** [ToolExecutionResponse( **kwargs )]: [success] and [tool_name] are
    required, [result] and [error] default to [None], other keys are
    ignored. *)
Definition ToolExecutionResponse_init (kwargs : list (string * json))
  : completion ToolExecutionResponse :=
  match dict_get "success" kwargs, dict_get "tool_name" kwargs with
  | Some vs, Some vt =>
      match validate_bool vs, validate_str vt,
            validate_optional_str (dict_get "error" kwargs) with
      | Some b, Some t, Some e =>
          Return {| success := b;
                    tool_name := t;
                    result := match dict_get "result" kwargs with
                              | Some r => r
                              | None => JNull
                              end;
                    error := e |}
      | _, _, _ => Raise (Exception (validation_error_str kwargs))
      end
  | _, _ => Raise (Exception (validation_error_str kwargs))
  end.

(** [ToolExecutionResponse( **v )] when [v] need not be a dict *)
Definition ToolExecutionResponse_kw (v : json)
  : completion ToolExecutionResponse :=
  match v with
  | JDict kwargs => ToolExecutionResponse_init kwargs
  | _ => Raise (Exception (mapping_error_str v))
  end.

(** ** The handlers *)

Definition root : handler json :=
  ret (JDict [
    ("service", JStr "meta-layer-gateway");
    ("version", JStr "1.0.0");
    ("status", JStr "active");
    ("endpoints", JDict [
      ("health", JStr "/health");
      ("discover_tools", JStr "/tools");
      ("execute_tool", JStr "/execute/{tool_name}")]);
    ("connected_to", JStr TOOL_WAREHOUSE_URL)]).

Definition health_check : handler json :=
  warehouse_healthy <-
    (try (response <- client_get (TOOL_WAREHOUSE_URL ++ "/health") 5 ;;
          ret (status_code response =? 200)%Z)
     except (fun _ => ret false)) ;;
  ret (JDict [
    ("status", JStr (if warehouse_healthy then "healthy" else "degraded"));
    ("service", JStr "meta-layer-gateway");
    ("version", JStr "1.0.0");
    ("tool_warehouse", JDict [
      ("url", JStr TOOL_WAREHOUSE_URL);
      ("status",
       JStr (if warehouse_healthy then "connected" else "unreachable"))])]).

Definition discover_tools : handler json :=
  try (response <- client_get (TOOL_WAREHOUSE_URL ++ "/tools") 10 ;;
       if (status_code response =? 200)%Z then
         lift (response_json response)
       else
         raise (HTTPException (status_code response)
                  ("Tool Warehouse returned error: " ++ text response)))
  except (fun e =>
    if isinstance_TimeoutException e then
      raise (HTTPException 504
               "Tool Warehouse timeout - service may be unavailable")
    else if isinstance_RequestError e then
      raise (HTTPException 503
               ("Cannot reach Tool Warehouse at " ++ TOOL_WAREHOUSE_URL
                ++ ": " ++ str e))
    else
      raise (HTTPException 500 ("Meta-Layer error: " ++ str e))).

Definition get_registry : handler json :=
  tools <- discover_tools ;;
  ret tools.

Definition execute_tool (tool_name : string) (request : ToolExecutionRequest)
  : handler ToolExecutionResponse :=
  try (response <-
         client_post (TOOL_WAREHOUSE_URL ++ "/execute/" ++ tool_name)
           (JDict [("parameters", JDict (parameters request))]) 30 ;;
       if (status_code response =? 200)%Z then
         result <- lift (response_json response) ;;
         lift (ToolExecutionResponse_kw result)
       else
         body <- lift (response_json response) ;;
         error_detail <- lift (get body "detail" (JStr (text response))) ;;
         ret {| success := false;
                tool_name := tool_name;
                result := JNull;
                error := Some ("Tool Warehouse error: "
                               ++ format error_detail) |})
  except (fun e =>
    if isinstance_TimeoutException e then
      ret {| success := false;
             tool_name := tool_name;
             result := JNull;
             error := Some
               "Tool execution timeout - tool may be taking too long" |}
    else if isinstance_RequestError e then
      ret {| success := false;
             tool_name := tool_name;
             result := JNull;
             error := Some ("Cannot reach Tool Warehouse: " ++ str e) |}
    else
      ret {| success := false;
             tool_name := tool_name;
             result := JNull;
             error := Some ("Meta-Layer error: " ++ str e) |}).

Definition get_tool_code (tool_name : string) : handler json :=
  try (response <-
         client_get (TOOL_WAREHOUSE_URL ++ "/tools/" ++ tool_name ++ "/code")
           10 ;;
       if (status_code response =? 200)%Z then
         ret (JDict [("tool_name", JStr tool_name);
                     ("code", JStr (text response))])
       else
         raise (HTTPException (status_code response) (text response)))
  except (fun e =>
    raise (HTTPException 500 ("Error retrieving tool code: " ++ str e))).

End Gateway.

(** ** FastAPI around the handlers *)

Inductive Body : Type :=
| JsonBody (v : json)
| TextBody (s : string)
| NoBody.

Record HttpResponse : Type := {
  http_status : Z;
  http_body : Body
}.

Definition is_body_allowed_for_status_code (s : Z) : bool :=
  negb ((s <? 200)%Z || (s =? 204)%Z || (s =? 205)%Z || (s =? 304)%Z).

(** An [HTTPException] leaving a handler becomes a response with its status
    and [{"detail": detail}]; any other exception a plain 500. *)
Definition http_exception_handler (e : exn) : HttpResponse :=
  match e with
  | HTTPException s d =>
      if is_body_allowed_for_status_code s then
        {| http_status := s;
           http_body := JsonBody (JDict [("detail", JStr d)]) |}
      else
        {| http_status := s; http_body := NoBody |}
  | _ => {| http_status := 500; http_body := TextBody "Internal Server Error" |}
  end.

(** The body of a [response_model=ToolExecutionResponse] route, as pydantic
    serializes the model: in [result] a NaN or an infinity becomes [null]. *)
Definition model_dump (r : ToolExecutionResponse) : json :=
  JDict [
    ("success", JBool (success r));
    ("tool_name", JStr (tool_name r));
    ("result", inf_nan_null (result r));
    ("error", match error r with Some s => JStr s | None => JNull end)].

(** The response to an exception that no handler of the application
    catches. *)
Definition internal_server_error : HttpResponse :=
  {| http_status := 500; http_body := TextBody "Internal Server Error" |}.

(** A route: the handler runs on a fresh log; what it returns is rendered as
    JSON and sent with status 200.  The rendering happens after the handler
    has returned, outside its [try]: when [json.dumps] refuses the value,
    its [ValueError] is caught by nobody and the answer is a plain 500. *)
Definition endpoint {A} (encode : A -> json) (h : handler A) (u : Upstream)
  : HttpResponse * list Call :=
  match h u [] with
  | (Return a, log) =>
      (if json_compliant (encode a) then
         {| http_status := 200; http_body := JsonBody (encode a) |}
       else internal_server_error,
       log)
  | (Raise e, log) => (http_exception_handler e, log)
  end.

(** The inbound requests that reach a handler; the body of
    [POST /execute/{tool_name}] has passed validation. *)
Inductive Request : Type :=
| GET_root
| GET_health
| GET_tools
| GET_registry
| POST_execute (tool_name : string) (request : ToolExecutionRequest)
| GET_tool_code (tool_name : string).

Section App.
Context {rt : PyRuntime} {cfg : GatewayConfig}.

Definition app (req : Request) : Upstream -> HttpResponse * list Call :=
  match req with
  | GET_root => endpoint id root
  | GET_health => endpoint id health_check
  | GET_tools => endpoint id discover_tools
  | GET_registry => endpoint id get_registry
  | POST_execute tool_name request =>
      endpoint model_dump (execute_tool tool_name request)
  | GET_tool_code tool_name => endpoint id (get_tool_code tool_name)
  end.

(** The outbound calls, by name. *)
Definition health_call : Call :=
  {| method := GET; url := TOOL_WAREHOUSE_URL ++ "/health";
     json_body := None; timeout := 5 |}.

Definition tools_call : Call :=
  {| method := GET; url := TOOL_WAREHOUSE_URL ++ "/tools";
     json_body := None; timeout := 10 |}.

Definition execute_call (tool_name : string) (request : ToolExecutionRequest)
  : Call :=
  {| method := POST; url := TOOL_WAREHOUSE_URL ++ "/execute/" ++ tool_name;
     json_body := Some (JDict [("parameters", JDict (parameters request))]);
     timeout := 30 |}.

Definition code_call (tool_name : string) : Call :=
  {| method := GET;
     url := TOOL_WAREHOUSE_URL ++ "/tools/" ++ tool_name ++ "/code";
     json_body := None; timeout := 10 |}.

End App.

(** ** Reading responses *)

(** [v[k1][k2]...] on nested dicts *)
Fixpoint json_path (ks : list string) (v : json) : option json :=
  match ks with
  | [] => Some v
  | k :: ks' =>
      match v with
      | JDict d =>
          match dict_get k d with
          | Some x => json_path ks' x
          | None => None
          end
      | _ => None
      end
  end.

(** The failure response of [execute_tool] for tool [t] with error [msg]. *)
Definition failure (t : string) (msg : string) : ToolExecutionResponse :=
  {| success := false; tool_name := t; result := JNull; error := Some msg |}.

(** The response to a raised [HTTPException] whose status allows a body. *)
Definition http_error (s : Z) (d : string) : HttpResponse :=
  {| http_status := s; http_body := JsonBody (JDict [("detail", JStr d)]) |}.

(** The response to a returned value. *)
Definition http_ok (v : json) : HttpResponse :=
  {| http_status := 200; http_body := JsonBody v |}.

(** [needle in hay] *)
Definition contains (needle hay : string) : bool :=
  match String.index 0 needle hay with
  | Some _ => true
  | None => false
  end.

(** ** Concrete runs *)

(** [str()] of an [HTTPException] in current Starlette:
    [f"{status_code}: {detail}"]. *)
Definition starlette_str (s : Z) (d : string) : string :=
  NilZero.string_of_int (Z.to_int s) ++ ": " ++ d.

(** A runtime for concrete runs: validators that accept exactly a JSON
    boolean and a JSON string (every pydantic version accepts these), fixed
    messages, scalars printed as CPython prints them.  The runs below never
    print a float or a container. *)
Definition strict_runtime : PyRuntime := {|
  validate_bool v := match v with JBool b => Some b | _ => None end;
  validate_str v := match v with JStr s => Some s | _ => None end;
  validation_error_str _ := "validation error for ToolExecutionResponse";
  mapping_error_str v :=
    "argument after ** must be a mapping, not " ++ type_name v;
  py_repr v :=
    match v with
    | JNull => "None"
    | JBool true => "True"
    | JBool false => "False"
    | JInt z => NilZero.string_of_int (Z.to_int z)
    | JStr s => s
    | _ => "<" ++ type_name v ++ ">"
    end;
  http_exception_str := starlette_str
|}.

Definition localhost : GatewayConfig :=
  {| TOOL_WAREHOUSE_URL := "http://localhost:8001" |}.

(** An upstream that gives the same answer to every call. *)
Definition always (r : reply) : Upstream := fun _ => r.

Definition json_response (s : Z) (t : string) (v : json) : Response :=
  {| status_code := s; text := t; json_method := inr v |}.

(** A response whose body is no JSON: [response.json()] raises CPython's
    [JSONDecodeError]. *)
Definition text_response (s : Z) (t : string) : Response :=
  {| status_code := s; text := t;
     json_method := inl "Expecting value: line 1 column 1 (char 0)" |}.

Definition quoted (s : string) : string :=
  String "034"%char s ++ String "034"%char "".







(** An execution result without its required [tool_name]:
    [{"success":true}]. *)
Definition success_only_text : string := "{" ++ quoted "success" ++ ":true}".

Definition success_only : json := JDict [("success", JBool true)].

Definition no_parameters : ToolExecutionRequest := {| parameters := [] |}.



(** The body another gateway sends for a failed run of [bar]:
    [{"success":false,"tool_name":"bar","result":null,"error":"boom"}]. *)
Definition bar_failure_text : string :=
  "{" ++ quoted "success" ++ ":false," ++ quoted "tool_name" ++ ":"
  ++ quoted "bar" ++ "," ++ quoted "result" ++ ":null," ++ quoted "error"
  ++ ":" ++ quoted "boom" ++ "}".



(** * Properties *)

Section Properties.
Context {rt : PyRuntime} {cfg : GatewayConfig}.

Ltac run_handler :=
  unfold app, endpoint, get_registry, discover_tools, health_check,
    execute_tool, get_tool_code, root, try_except, bind, client_get,
    client_post, client_request, raise, ret, lift;
  fold health_call tools_call;
  repeat match goal with
    | |- context [{| method := POST; url := _ ++ "/execute/" ++ ?t;
                     json_body := Some (JDict [(_, JDict (parameters ?r))]);
                     timeout := 30 |}] => fold (execute_call t r)
    | |- context [{| method := GET; url := _ ++ "/tools/" ++ ?t ++ "/code";
                     json_body := None; timeout := 10 |}] => fold (code_call t)
    end.


(** ** What each handler does with the upstream's reply *)

(** [return await m] is [m]. *)
Lemma bind_ret {A} (m : handler A) (u : Upstream) (log : list Call) :
  bind m ret u log = m u log.
Proof.
  unfold bind, ret. destruct (m u log) as [[a | e] log']; reflexivity.
Qed.

(** Induction on a JSON value, with the property known of the members of a
    list and of the values of a dict. *)
Lemma json_nested_ind (P : json -> Prop) :
  P JNull ->
  (forall b, P (JBool b)) ->
  (forall z, P (JInt z)) ->
  (forall f, P (JFloat f)) ->
  (forall s, P (JStr s)) ->
  (forall l, Forall P l -> P (JList l)) ->
  (forall d, Forall (fun kv => P (snd kv)) d -> P (JDict d)) ->
  forall v, P v.
Proof.
  intros HNull HBool HInt HFloat HStr HList HDict.
  fix IH 1. intros [| b | z | f | s | l | d].
  - exact HNull.
  - apply HBool.
  - apply HInt.
  - apply HFloat.
  - apply HStr.
  - apply HList. induction l as [| x l IHl]; constructor; [apply IH | exact IHl].
  - apply HDict. induction d as [| [k x] d IHd]; constructor;
      [apply IH | exact IHd].
Qed.

(** What pydantic writes is accepted by [json.dumps]. *)
Lemma inf_nan_null_compliant (v : json) :
  json_compliant (inf_nan_null v) = true.
Proof.
  induction v as [| b | z | f | s | l IH | d IH] using json_nested_ind;
    simpl; try reflexivity.
  - destruct (is_finite f) eqn:Hf; simpl; [exact Hf | reflexivity].
  - induction IH as [| x l Hx _ IHl]; simpl; [reflexivity |].
    rewrite Hx. exact IHl.
  - induction IH as [| kv d Hkv _ IHd]; simpl; [reflexivity |].
    rewrite Hkv. exact IHd.
Qed.

(** Writing a written value again changes nothing. *)
Lemma inf_nan_null_idempotent (v : json) :
  inf_nan_null (inf_nan_null v) = inf_nan_null v.
Proof.
  induction v as [| b | z | f | s | l IH | d IH] using json_nested_ind;
    simpl; try reflexivity.
  - destruct (is_finite f) eqn:Hf; simpl; [rewrite Hf |];
      reflexivity.
  - f_equal. induction IH as [| x l Hx _ IHl]; simpl; [reflexivity |].
    rewrite Hx, IHl. reflexivity.
  - f_equal. induction IH as [| kv d Hkv _ IHd]; simpl; [reflexivity |].
    rewrite Hkv, IHd. reflexivity.
Qed.

(** The body of the execution route always renders. *)
Lemma model_dump_compliant (r : ToolExecutionResponse) :
  json_compliant (model_dump r) = true.
Proof.
  unfold model_dump. simpl. rewrite inf_nan_null_compliant.
  destruct (error r); reflexivity.
Qed.

Lemma status_200_eqb (r : Response) :
  status_code r <> 200 -> (status_code r =? 200)%Z = false.
Proof. intro H. now apply Z.eqb_neq. Qed.

(** A non-200 reply to [discover_tools] raises an [HTTPException] inside the
    [try]; the last [except] clause catches it and raises a 500. *)
Lemma discover_tools_upstream_error (u : Upstream) (r : Response) :
  u tools_call = Responds r ->
  status_code r <> 200 ->
  discover_tools u [] =
    (Raise (HTTPException 500
       ("Meta-Layer error: "
        ++ http_exception_str (status_code r)
             ("Tool Warehouse returned error: " ++ text r))),
     [tools_call]).
Proof.
  intros Hu Hs. run_handler. rewrite Hu, (status_200_eqb r Hs). reflexivity.
Qed.

(** The same happens in [get_tool_code]. *)
Lemma get_tool_code_upstream_error (u : Upstream) (t : string) (r : Response) :
  u (code_call t) = Responds r ->
  status_code r <> 200 ->
  get_tool_code t u [] =
    (Raise (HTTPException 500
       ("Error retrieving tool code: "
        ++ http_exception_str (status_code r) (text r))),
     [code_call t]).
Proof.
  intros Hu Hs. run_handler. rewrite Hu, (status_200_eqb r Hs). reflexivity.
Qed.


(** An exception that is no [httpx] error, raised after the call, ends in
    the last [except] clause. *)
Lemma response_json_not_httpx (resp : Response) (e : exn) :
  response_json resp = Raise e -> isinstance_RequestError e = false.
Proof.
  unfold response_json. destruct (json_method resp); intro H; inversion H.
  reflexivity.
Qed.


Lemma ToolExecutionResponse_kw_not_httpx (v : json) (e : exn) :
  ToolExecutionResponse_kw v = Raise e -> isinstance_RequestError e = false.
Proof.
  unfold ToolExecutionResponse_kw, ToolExecutionResponse_init.
  destruct v; try (intro H; inversion H; reflexivity).
  destruct (dict_get "success" d), (dict_get "tool_name" d);
    try (intro H; inversion H; reflexivity).
  destruct (validate_bool j), (validate_str j0),
    (validate_optional_str (dict_get "error" d));
    intro H; inversion H; reflexivity.
Qed.

Lemma not_request_error_not_timeout (e : exn) :
  isinstance_RequestError e = false -> isinstance_TimeoutException e = false.
Proof. destruct e; simpl; congruence. Qed.

(** ** GET /tools and GET /registry *)


(** A 200 reply to [GET /tools] whose JSON value holds a NaN or an infinity
    is returned by the handler and refused by the rendering: the answer is
    the plain 500. *)
Lemma discover_tools_200_not_compliant (u : Upstream) (r : Response)
    (v : json) :
  u tools_call = Responds r ->
  status_code r = 200 ->
  json_method r = inr v ->
  json_compliant v = false ->
  fst (app GET_tools u) = internal_server_error.
Proof.
  intros Hu Hs Hj Hv. run_handler.
  rewrite Hu, Hs. unfold response_json. rewrite Hj. simpl.
  unfold id. rewrite Hv. reflexivity.
Qed.

(** X3: a 200 reply to [GET /tools] whose body is no JSON is not relayed:
    [response.json()] raises inside the [try] and the last [except] clause
    answers 500 with the parser's message. *)
Lemma discover_tools_200_not_json (u : Upstream) (r : Response)
    (msg : string) :
  u tools_call = Responds r ->
  status_code r = 200 ->
  json_method r = inl msg ->
  fst (app GET_tools u) = http_error 500 ("Meta-Layer error: " ++ msg).
Proof.
  intros Hu Hs Hj. run_handler.
  rewrite Hu, Hs. unfold response_json. rewrite Hj. reflexivity.
Qed.

(** C7: when the outbound call of [GET /tools] fails without a response, a
    timeout gives 504 with a message that the service may be unavailable, any
    other request error gives 503 with a message naming the configured
    upstream URL, and any other exception gives 500 with its message. *)
Theorem discover_tools_no_response (u : Upstream) :
  (forall msg, u tools_call = Fails (TimeoutException msg) ->
     fst (app GET_tools u) =
       http_error 504 "Tool Warehouse timeout - service may be unavailable")
  /\
  (forall msg, u tools_call = Fails (RequestError msg) ->
     fst (app GET_tools u) =
       http_error 503
         ("Cannot reach Tool Warehouse at " ++ TOOL_WAREHOUSE_URL ++ ": "
          ++ msg))
  /\
  (forall e, u tools_call = Fails e ->
     isinstance_RequestError e = false ->
     fst (app GET_tools u) =
       http_error 500 ("Meta-Layer error: " ++ str e)).
Proof.
  repeat split.
  - intros msg Hu. run_handler. rewrite Hu. reflexivity.
  - intros msg Hu. run_handler. rewrite Hu. reflexivity.
  - intros e Hu He. run_handler. rewrite Hu. simpl.
    rewrite (not_request_error_not_timeout e He), He. reflexivity.
Qed.

(** C8: against the same upstream, [GET /registry] and [GET /tools] give the
    same response (status and body) and make the same outbound call. *)
Theorem registry_is_tools (u : Upstream) :
  app GET_registry u = app GET_tools u.
Proof.
  unfold app, endpoint, get_registry.
  rewrite (bind_ret discover_tools u []).
  reflexivity.
Qed.

(** ** GET /health *)

(** C4: [GET /health] always answers with status 200 and the configured
    upstream URL; when the upstream answers its [/health] with 200 the
    status is "healthy" and the warehouse "connected"; on every other
    upstream status and on every exception of the call the status is
    "degraded" and the warehouse "unreachable". *)
Theorem health_check_always_200 (u : Upstream) :
  exists payload,
    fst (app GET_health u) = http_ok payload
    /\ json_path ["tool_warehouse"; "url"] payload
       = Some (JStr TOOL_WAREHOUSE_URL)
    /\ (forall r, u health_call = Responds r -> status_code r = 200 ->
          json_path ["status"] payload = Some (JStr "healthy")
          /\ json_path ["tool_warehouse"; "status"] payload
             = Some (JStr "connected"))
    /\ (forall r, u health_call = Responds r -> status_code r <> 200 ->
          json_path ["status"] payload = Some (JStr "degraded")
          /\ json_path ["tool_warehouse"; "status"] payload
             = Some (JStr "unreachable"))
    /\ (forall e, u health_call = Fails e ->
          json_path ["status"] payload = Some (JStr "degraded")
          /\ json_path ["tool_warehouse"; "status"] payload
             = Some (JStr "unreachable")).
Proof.
  run_handler.
  destruct (u health_call) as [r | e] eqn:Hu; simpl.
  - destruct (status_code r =? 200)%Z eqn:Hs; simpl;
      [apply Z.eqb_eq in Hs | apply Z.eqb_neq in Hs];
      eexists; (split; [reflexivity |]); (split; [reflexivity |]);
      repeat split; intros; try discriminate; congruence.
  - eexists; (split; [reflexivity |]); (split; [reflexivity |]);
      repeat split; intros; discriminate.
Qed.

(** ** POST /execute/{tool_name} *)


(** C10: when the upstream answers 200 with a body from which no
    [ToolExecutionResponse] can be built (the body is no JSON, or the value
    fails validation), the handler still answers 200, with [success] false
    and the error "Meta-Layer error: " followed by the exception's message. *)
Theorem execute_tool_malformed_200 (u : Upstream) (t : string)
    (rq : ToolExecutionRequest) (resp : Response) (e : exn) :
  u (execute_call t rq) = Responds resp ->
  status_code resp = 200 ->
  (response_json resp = Raise e
   \/ exists v, response_json resp = Return v
                /\ ToolExecutionResponse_kw v = Raise e) ->
  fst (app (POST_execute t rq) u)
  = http_ok (model_dump (failure t ("Meta-Layer error: " ++ str e))).
Proof.
  intros Hu Hs Hbad. run_handler. rewrite Hu, Hs. simpl.
  destruct Hbad as [Hj | [v [Hj Hk]]]; rewrite Hj; simpl.
  - rewrite (not_request_error_not_timeout e),
      (response_json_not_httpx resp e Hj)
      by exact (response_json_not_httpx resp e Hj).
    reflexivity.
  - rewrite Hk; simpl.
    rewrite (not_request_error_not_timeout e),
      (ToolExecutionResponse_kw_not_httpx v e Hk)
      by exact (ToolExecutionResponse_kw_not_httpx v e Hk).
    reflexivity.
Qed.


(** C5, where the code departs from it: the upstream answers
    [POST /execute/foo] with status 502 and the plain text "Bad Gateway".
    The claim asks for an error that carries this body text; the handler
    reports the exception of [response.json()] instead, and the body text is
    not in the error. *)
Theorem execute_tool_502_plain_text :
  fst (app (POST_execute "foo" no_parameters)
         (always (Responds (text_response 502 "Bad Gateway"))))
  = http_ok (model_dump (failure "foo"
      "Meta-Layer error: Expecting value: line 1 column 1 (char 0)"))
  /\ contains "Bad Gateway"
       "Meta-Layer error: Expecting value: line 1 column 1 (char 0)" = false.
Proof. split; reflexivity. Qed.

(** ** GET /tools/{tool_name}/code *)

(** X4: a 200 reply to the code request gives [{tool_name, code}] with the
    requested tool name and the raw body text as code; the body is not
    parsed. *)
Lemma get_tool_code_ok (u : Upstream) (t : string) (r : Response) :
  u (code_call t) = Responds r ->
  status_code r = 200 ->
  fst (app (GET_tool_code t) u)
  = http_ok (JDict [("tool_name", JStr t); ("code", JStr (text r))]).
Proof. intros Hu Hs. run_handler. rewrite Hu, Hs. reflexivity. Qed.

(** X13: every exception of the code request's call, a timeout and a
    connection failure included, gives 500 with "Error retrieving tool
    code: " and its message. *)
Lemma get_tool_code_call_fails (u : Upstream) (t : string) (e : exn) :
  u (code_call t) = Fails e ->
  fst (app (GET_tool_code t) u)
  = http_error 500 ("Error retrieving tool code: " ++ str e).
Proof. intros Hu. run_handler. rewrite Hu. reflexivity. Qed.

(** C3, where the code departs from it: the upstream answers
    [GET /tools/foo/code] with status 404 and the text "no such tool".  The
    claim asks for a failure with status 404 and that text; the
    [HTTPException] raised with them is caught by the handler's own [except]
    clause, and the gateway answers 500. *)
Theorem get_tool_code_404_gives_500 :
  fst (app (GET_tool_code "foo")
         (always (Responds (text_response 404 "no such tool"))))
  = http_error 500
      ("Error retrieving tool code: "
       ++ http_exception_str 404 "no such tool")
  /\ http_status
       (fst (app (GET_tool_code "foo")
               (always (Responds (text_response 404 "no such tool")))))
     <> 404.
Proof.
  assert (H : (404 : Z) <> 200) by discriminate.
  pose proof (get_tool_code_upstream_error
                (always (Responds (text_response 404 "no such tool")))
                "foo" _ eq_refl H) as Hrun.
  unfold app, endpoint. rewrite Hrun. simpl.
  split; [reflexivity | discriminate].
Qed.

(** ** The upstream's errors on GET /tools *)

(** C1, where the code departs from it: the upstream answers [GET /tools]
    with status 404 and the text "registry not found".  The claim asks for
    an error with status 404; the [HTTPException] raised with it is caught
    by the handler's last [except] clause, and the gateway answers 500. *)
Theorem discover_tools_404_gives_500 :
  fst (app GET_tools
         (always (Responds (text_response 404 "registry not found"))))
  = http_error 500
      ("Meta-Layer error: "
       ++ http_exception_str 404
            "Tool Warehouse returned error: registry not found")
  /\ http_status
       (fst (app GET_tools
               (always (Responds (text_response 404 "registry not found")))))
     <> 404.
Proof.
  assert (H : (404 : Z) <> 200) by discriminate.
  pose proof (discover_tools_upstream_error
                (always (Responds (text_response 404 "registry not found")))
                _ eq_refl H) as Hrun.
  unfold app, endpoint. rewrite Hrun. simpl.
  split; [reflexivity | discriminate].
Qed.

(** ** Outbound calls *)


(** * Further properties of the handlers *)


(** ** GET /tools *)

(** X1: whatever status other than 200 the upstream answers [GET /tools]
    with, the gateway answers 500; the upstream's status and body text reach
    the caller only inside the [str()] of the caught [HTTPException]. *)
Theorem discover_tools_non_200_is_500 (u : Upstream) (r : Response) :
  u tools_call = Responds r ->
  status_code r <> 200 ->
  fst (app GET_tools u)
  = http_error 500
      ("Meta-Layer error: "
       ++ http_exception_str (status_code r)
            ("Tool Warehouse returned error: " ++ text r)).
Proof.
  intros Hu Hs. unfold app, endpoint.
  rewrite (discover_tools_upstream_error u r Hu Hs). reflexivity.
Qed.



(** ** GET /tools/{tool_name}/code *)

(** X5: whatever status other than 200 the upstream answers the code request
    with, the gateway answers 500, with the upstream's status and text only
    inside the [str()] of the caught [HTTPException]. *)
Theorem get_tool_code_non_200_is_500 (u : Upstream) (t : string)
    (r : Response) :
  u (code_call t) = Responds r ->
  status_code r <> 200 ->
  fst (app (GET_tool_code t) u)
  = http_error 500
      ("Error retrieving tool code: "
       ++ http_exception_str (status_code r) (text r)).
Proof.
  intros Hu Hs. unfold app, endpoint.
  rewrite (get_tool_code_upstream_error u t r Hu Hs). reflexivity.
Qed.

(** X6: the code route answers either 200, with the text of an upstream 200
    as code under the requested tool name, or 500; it has no 503 or 504 of
    its own, so timeouts and connection failures are not told apart. *)
Theorem get_tool_code_answers (u : Upstream) (t : string) :
  (exists r,
     u (code_call t) = Responds r /\ status_code r = 200
     /\ fst (app (GET_tool_code t) u)
        = http_ok (JDict [("tool_name", JStr t); ("code", JStr (text r))]))
  \/ (exists d, fst (app (GET_tool_code t) u) = http_error 500 d).
Proof.
  run_handler.
  destruct (u (code_call t)) as [r | e] eqn:Hu; simpl.
  - destruct (status_code r =? 200)%Z eqn:Hs; simpl.
    + apply Z.eqb_eq in Hs. left. exists r. auto.
    + right. eexists. reflexivity.
  - right. eexists. reflexivity.
Qed.

(** ** POST /execute/{tool_name} *)

(** X8: when the call of [execute_tool] raises, the response is a failure
    for the tool of the path: a timeout is reported with the fixed timeout
    message (its clause comes before the one of [RequestError], of which it
    is a subclass), any other request error as "Cannot reach Tool
    Warehouse: " with its message, any other exception as "Meta-Layer
    error: " with its message. *)
Theorem execute_tool_no_response (u : Upstream) (t : string)
    (rq : ToolExecutionRequest) :
  (forall msg, u (execute_call t rq) = Fails (TimeoutException msg) ->
     fst (app (POST_execute t rq) u)
     = http_ok (model_dump (failure t
         "Tool execution timeout - tool may be taking too long")))
  /\
  (forall msg, u (execute_call t rq) = Fails (RequestError msg) ->
     fst (app (POST_execute t rq) u)
     = http_ok (model_dump (failure t
         ("Cannot reach Tool Warehouse: " ++ msg))))
  /\
  (forall e, u (execute_call t rq) = Fails e ->
     isinstance_RequestError e = false ->
     fst (app (POST_execute t rq) u)
     = http_ok (model_dump (failure t ("Meta-Layer error: " ++ str e)))).
Proof.
  repeat split.
  - intros msg Hu. run_handler. rewrite Hu. reflexivity.
  - intros msg Hu. run_handler. rewrite Hu. reflexivity.
  - intros e Hu He. run_handler. rewrite Hu. simpl.
    rewrite (not_request_error_not_timeout e He), He. reflexivity.
Qed.

(** A 200 reply from whose JSON value a response validates is returned. *)
Lemma execute_tool_200_returns (u : Upstream) (t : string)
    (rq : ToolExecutionRequest) (resp : Response) (v : json)
    (r : ToolExecutionResponse) :
  u (execute_call t rq) = Responds resp ->
  status_code resp = 200 ->
  json_method resp = inr v ->
  ToolExecutionResponse_kw v = Return r ->
  execute_tool t rq u [] = (Return r, [execute_call t rq]).
Proof.
  intros Hu Hs Hj Hk. run_handler. rewrite Hu, Hs.
  unfold response_json. rewrite Hj.
  change (200 =? 200)%Z with true. cbv iota beta. rewrite Hk. reflexivity.
Qed.


(** A dumped response validates, when the validators accept a JSON boolean
    and a JSON string as they are, to the response whose [result] is the
    dumped one. *)
Lemma model_dump_validates (r : ToolExecutionResponse) :
  (forall b, validate_bool (JBool b) = Some b) ->
  (forall s, validate_str (JStr s) = Some s) ->
  ToolExecutionResponse_kw (model_dump r)
  = Return {| success := success r; tool_name := tool_name r;
              result := inf_nan_null (result r); error := error r |}.
Proof.
  intros Hb Hstr. destruct r as [b t v e].
  unfold model_dump, ToolExecutionResponse_kw, ToolExecutionResponse_init.
  simpl. rewrite Hb, Hstr.
  destruct e as [s |]; simpl; [rewrite Hstr |]; reflexivity.
Qed.

(** Dumping that response gives the same body again. *)
Lemma model_dump_again (r : ToolExecutionResponse) :
  model_dump {| success := success r; tool_name := tool_name r;
                result := inf_nan_null (result r); error := error r |}
  = model_dump r.
Proof.
  unfold model_dump. simpl. rewrite inf_nan_null_idempotent. reflexivity.
Qed.

(** X10: a gateway whose upstream answers 200 with the body of a
    [ToolExecutionResponse], as another gateway does, sends the same body
    on, provided the validators accept a JSON boolean and a JSON string as
    they are. *)
Theorem execute_tool_relays_dumped_response (u : Upstream) (t : string)
    (rq : ToolExecutionRequest) (resp : Response)
    (r : ToolExecutionResponse) :
  (forall b, validate_bool (JBool b) = Some b) ->
  (forall s, validate_str (JStr s) = Some s) ->
  u (execute_call t rq) = Responds resp ->
  status_code resp = 200 ->
  json_method resp = inr (model_dump r) ->
  fst (app (POST_execute t rq) u) = http_ok (model_dump r).
Proof.
  intros Hb Hstr Hu Hs Hj. unfold app, endpoint.
  rewrite (execute_tool_200_returns u t rq resp (model_dump r) _ Hu Hs Hj
             (model_dump_validates r Hb Hstr)).
  rewrite model_dump_compliant, model_dump_again. reflexivity.
Qed.

(** ** All routes *)


End Properties.

(** * Concrete runs of the theorems

    The gateway at [localhost] with [strict_runtime], against upstreams that
    give one fixed answer. *)



(** A timeout, a refused connection and a bad URL on [GET /tools]. *)
Lemma discover_tools_no_response_witness :
  fst (@app strict_runtime localhost GET_tools
         (always (Fails (TimeoutException "timed out"))))
  = http_error 504 "Tool Warehouse timeout - service may be unavailable"
  /\
  fst (@app strict_runtime localhost GET_tools
         (always (Fails (RequestError "All connection attempts failed"))))
  = http_error 503
      ("Cannot reach Tool Warehouse at http://localhost:8001: "
       ++ "All connection attempts failed")
  /\
  fst (@app strict_runtime localhost GET_tools
         (always (Fails (Exception "invalid URL"))))
  = http_error 500 "Meta-Layer error: invalid URL".
Proof.
  split; [| split].
  - exact (proj1 (@discover_tools_no_response strict_runtime localhost
                    (always (Fails (TimeoutException "timed out"))))
             "timed out" eq_refl).
  - exact (proj1 (proj2 (@discover_tools_no_response strict_runtime localhost
                    (always (Fails
                       (RequestError "All connection attempts failed")))))
             "All connection attempts failed" eq_refl).
  - exact (proj2 (proj2 (@discover_tools_no_response strict_runtime localhost
                    (always (Fails (Exception "invalid URL")))))
             (Exception "invalid URL") eq_refl eq_refl).
Defined.

(** A 200 whose body is no JSON, and a 200 whose JSON object lacks
    [tool_name], on [POST /execute/foo]. *)
Lemma execute_tool_malformed_200_witness :
  fst (@app strict_runtime localhost (POST_execute "foo" no_parameters)
         (always (Responds (text_response 200 "<html></html>"))))
  = http_ok (model_dump (failure "foo"
      "Meta-Layer error: Expecting value: line 1 column 1 (char 0)"))
  /\
  fst (@app strict_runtime localhost (POST_execute "foo" no_parameters)
         (always (Responds (json_response 200 success_only_text success_only))))
  = http_ok (model_dump (failure "foo"
      "Meta-Layer error: validation error for ToolExecutionResponse")).
Proof.
  split.
  - apply (@execute_tool_malformed_200 strict_runtime localhost
             (always (Responds (text_response 200 "<html></html>")))
             "foo" no_parameters (text_response 200 "<html></html>")
             (Exception "Expecting value: line 1 column 1 (char 0)"));
      [reflexivity | reflexivity | left; reflexivity].
  - apply (@execute_tool_malformed_200 strict_runtime localhost
             (always (Responds
                (json_response 200 success_only_text success_only)))
             "foo" no_parameters
             (json_response 200 success_only_text success_only)
             (Exception "validation error for ToolExecutionResponse"));
      [reflexivity | reflexivity |].
    right. exists success_only. split; reflexivity.
Defined.

(** ** Concrete runs of the further properties *)

(** An upstream 503 on [GET /tools] reaches the caller as a 500. *)
Lemma discover_tools_non_200_is_500_witness :
  fst (@app strict_runtime localhost GET_tools
         (always (Responds (text_response 503 "Service Unavailable"))))
  = http_error 500
      ("Meta-Layer error: 503: Tool Warehouse returned error: "
       ++ "Service Unavailable").
Proof.
  apply (@discover_tools_non_200_is_500 strict_runtime localhost
           (always (Responds (text_response 503 "Service Unavailable")))
           (text_response 503 "Service Unavailable"));
    [reflexivity | discriminate].
Defined.

(** An HTML page answered with 200 on [GET /tools]. *)
Lemma discover_tools_200_not_json_witness :
  fst (@app strict_runtime localhost GET_tools
         (always (Responds (text_response 200 "<html></html>"))))
  = http_error 500
      "Meta-Layer error: Expecting value: line 1 column 1 (char 0)".
Proof.
  apply (@discover_tools_200_not_json strict_runtime localhost
           (always (Responds (text_response 200 "<html></html>")))
           (text_response 200 "<html></html>")
           "Expecting value: line 1 column 1 (char 0)");
    reflexivity.
Defined.

(** The source of [foo] answered with 200. *)
Lemma get_tool_code_ok_witness :
  fst (@app strict_runtime localhost (GET_tool_code "foo")
         (always (Responds (text_response 200 "def foo(): return 1"))))
  = http_ok (JDict [("tool_name", JStr "foo");
                    ("code", JStr "def foo(): return 1")]).
Proof.
  apply (@get_tool_code_ok strict_runtime localhost
           (always (Responds (text_response 200 "def foo(): return 1")))
           "foo" (text_response 200 "def foo(): return 1"));
    reflexivity.
Defined.

(** An upstream 503 on the code request reaches the caller as a 500. *)
Lemma get_tool_code_non_200_is_500_witness :
  fst (@app strict_runtime localhost (GET_tool_code "foo")
         (always (Responds (text_response 503 "Service Unavailable"))))
  = http_error 500 "Error retrieving tool code: 503: Service Unavailable".
Proof.
  apply (@get_tool_code_non_200_is_500 strict_runtime localhost
           (always (Responds (text_response 503 "Service Unavailable")))
           "foo" (text_response 503 "Service Unavailable"));
    [reflexivity | discriminate].
Defined.

(** A timeout of the code request is a 500, not a 504. *)
Lemma get_tool_code_call_fails_witness :
  fst (@app strict_runtime localhost (GET_tool_code "foo")
         (always (Fails (TimeoutException "timed out"))))
  = http_error 500 "Error retrieving tool code: timed out".
Proof.
  apply (@get_tool_code_call_fails strict_runtime localhost
           (always (Fails (TimeoutException "timed out")))
           "foo" (TimeoutException "timed out")).
  reflexivity.
Defined.


(** A timeout, a refused connection and a bad URL on [POST /execute/foo]. *)
Lemma execute_tool_no_response_witness :
  fst (@app strict_runtime localhost (POST_execute "foo" no_parameters)
         (always (Fails (TimeoutException "timed out"))))
  = http_ok (model_dump (failure "foo"
      "Tool execution timeout - tool may be taking too long"))
  /\
  fst (@app strict_runtime localhost (POST_execute "foo" no_parameters)
         (always (Fails (RequestError "All connection attempts failed"))))
  = http_ok (model_dump (failure "foo"
      "Cannot reach Tool Warehouse: All connection attempts failed"))
  /\
  fst (@app strict_runtime localhost (POST_execute "foo" no_parameters)
         (always (Fails (Exception "invalid URL"))))
  = http_ok (model_dump (failure "foo" "Meta-Layer error: invalid URL")).
Proof.
  split; [| split].
  - exact (proj1 (@execute_tool_no_response strict_runtime localhost
                    (always (Fails (TimeoutException "timed out")))
                    "foo" no_parameters)
             "timed out" eq_refl).
  - exact (proj1 (proj2 (@execute_tool_no_response strict_runtime localhost
                    (always (Fails
                       (RequestError "All connection attempts failed")))
                    "foo" no_parameters))
             "All connection attempts failed" eq_refl).
  - exact (proj2 (proj2 (@execute_tool_no_response strict_runtime localhost
                    (always (Fails (Exception "invalid URL")))
                    "foo" no_parameters))
             (Exception "invalid URL") eq_refl eq_refl).
Defined.


(** The upstream is a gateway that reports a failed run of [bar]. *)
Lemma execute_tool_relays_dumped_response_witness :
  fst (@app strict_runtime localhost (POST_execute "bar" no_parameters)
         (always (Responds
            (json_response 200 bar_failure_text
               (model_dump (failure "bar" "boom"))))))
  = http_ok (model_dump (failure "bar" "boom")).
Proof.
  apply (@execute_tool_relays_dumped_response strict_runtime localhost
           (always (Responds
              (json_response 200 bar_failure_text
                 (model_dump (failure "bar" "boom")))))
           "bar" no_parameters
           (json_response 200 bar_failure_text
              (model_dump (failure "bar" "boom"))));
    reflexivity.
Defined.
